(** * The ReAct agent graph of [react_agent/graph.py]

    A shallow embedding of the two graph nodes ([call_model],
    [dynamic_tools_node]), of the conditional edge [route_model_output] and
    of the cycle the [StateGraph] builder wires between them, followed by the
    properties the specification states about them. *)

From stdpp Require Import base option list strings.

Local Open Scope string_scope.
Local Open Scope list_scope.

(** ** Messages ([langchain_core.messages]) *)

(** A tool call requested by the model: [{"name": ..., "args": ..., "id": ...}]. *)
Record ToolCall := mkToolCall {
  tc_name : string;
  tc_args : list (string * string);
  tc_id : string
}.

Record UsageMetadata := mkUsage {
  input_tokens : nat;
  output_tokens : nat;
  total_tokens : nat
}.

(** The fields [langchain_core] declares for an [AIMessage]: besides the
    content, the identifier and the tool calls, a response of a chat model
    carries a name, the tool calls that failed to parse, provider-specific
    keyword data, response metadata and token usage.
    [AIMessage(id=..., content=...)] leaves every field it is not given at
    the default collected in [new_AIMessage] below. *)
Record AIMessage := mkAIMessage {
  ai_content : string;
  ai_id : option string;
  ai_name : option string;
  ai_tool_calls : list ToolCall;
  ai_invalid_tool_calls : list ToolCall;
  ai_additional_kwargs : list (string * string);
  ai_response_metadata : list (string * string);
  ai_usage_metadata : option UsageMetadata
}.

(** [AIMessage(id=id, content=content)] *)
Definition new_AIMessage (id : option string) (content : string) : AIMessage :=
  {| ai_content := content;
     ai_id := id;
     ai_name := None;
     ai_tool_calls := [];
     ai_invalid_tool_calls := [];
     ai_additional_kwargs := [];
     ai_response_metadata := [];
     ai_usage_metadata := None |}.

Inductive ToolStatus := status_success | status_error.

Record ToolMessage := mkToolMessage {
  tm_content : string;
  tm_name : option string;
  tm_tool_call_id : string;
  tm_status : ToolStatus
}.

Inductive AnyMessage :=
| SystemMsg (content : string)
| HumanMsg (content : string)
| AIMsg (m : AIMessage)
| ToolMsg (m : ToolMessage).

(** [isinstance(m, AIMessage)] *)
Definition isinstance_AIMessage (m : AnyMessage) : bool :=
  match m with AIMsg _ => true | _ => false end.

Definition isinstance_SystemMessage (m : AnyMessage) : bool :=
  match m with SystemMsg _ => true | _ => false end.

(** [type(m).__name__] *)
Definition type_name (m : AnyMessage) : string :=
  match m with
  | SystemMsg _ => "SystemMessage"
  | HumanMsg _ => "HumanMessage"
  | AIMsg _ => "AIMessage"
  | ToolMsg _ => "ToolMessage"
  end.

(** ** Exceptions and outcomes *)

Inductive Exn :=
| ValueError (msg : string)
| IndexError (msg : string)
| KeyError (msg : string)
| BackendError (msg : string).

Inductive Outcome (A : Type) :=
| Returned (a : A)
| Raised (e : Exn).
Arguments Returned {A} a.
Arguments Raised {A} e.

(** [l[-1]]: the last element, [IndexError] on an empty list. *)
Definition py_last {A} (l : list A) : Outcome A :=
  match last l with
  | Some x => Returned x
  | None => Raised (IndexError "list index out of range")
  end.

(** Truth value of a list: [bool(l)]. *)
Definition truthy {A} (l : list A) : bool :=
  match l with [] => false | _ :: _ => true end.

(** ** The graph state and the run context *)

(** The two fields of [react_agent.state.State] the graph reads. *)
Record State := mkState {
  messages : list AnyMessage;
  is_last_step : bool
}.

(** The two fields of [common.context.Context] the graph reads. *)
Record Context := mkContext {
  model : string;
  system_prompt : string
}.

(** ** The conditional edge *)

(** [Literal["__end__", "tools"]] *)
Inductive Route := Route_end | Route_tools.

Definition route_label (r : Route) : string :=
  match r with Route_end => "__end__" | Route_tools => "tools" end.

(** The [ValueError] of [route_model_output]: the spec's [InvalidState]. *)
Definition InvalidState (last_message : AnyMessage) : Exn :=
  ValueError ("Expected AIMessage in output edges, but got " +:+ type_name last_message).

Definition route_model_output (state : State) : Outcome Route :=
  match py_last (messages state) with
  | Raised e => Raised e
  | Returned last_message =>
      match last_message with
      | AIMsg ai =>
          (* If there is no tool call, then we finish *)
          if negb (truthy (ai_tool_calls ai)) then Returned Route_end
          (* Otherwise we execute the requested actions *)
          else Returned Route_tools
      | _ => Raised (InvalidState last_message)
      end
  end.

(** ** The collaborators the nodes await

    [get_tools], [load_chat_model], the clock, the chat model and the tools
    are outside the graph.  A node is a program over their calls; an
    interpreter runs it against handlers over a world, and records every
    call with its answer. *)

(** A tool as [get_tools] returns it. *)
Record Tool := mkTool {
  tool_name : string;
  tool_description : string
}.

(** [load_chat_model(name).bind_tools(tools)] *)
Record BoundModel := mkBoundModel {
  bm_model : string;
  bm_tools : list Tool
}.

Definition bind_tools (chat_model : string) (tools : list Tool) : BoundModel :=
  {| bm_model := chat_model; bm_tools := tools |}.

(** What one tool invocation hands back: its payload, and whether it failed. *)
Record ToolResult := mkToolResult {
  tr_content : string;
  tr_failed : bool
}.

Inductive Prog (A : Type) : Type :=
| Ret (a : A)
| Raise (e : Exn)
| GetTools (k : list Tool -> Prog A)
| LoadChatModel (name : string) (k : string -> Prog A)
| UtcNowIso (k : string -> Prog A)
| StrFormat (template system_time : string) (k : string -> Prog A)
| Ainvoke (m : BoundModel) (input : list AnyMessage) (k : AIMessage -> Prog A)
| InvokeTool (t : Tool) (call : ToolCall) (k : ToolResult -> Prog A).
Arguments Ret {A} a.
Arguments Raise {A} e.
Arguments GetTools {A} k.
Arguments LoadChatModel {A} name k.
Arguments UtcNowIso {A} k.
Arguments StrFormat {A} template system_time k.
Arguments Ainvoke {A} m input k.
Arguments InvokeTool {A} t call k.

Fixpoint bind {A B} (p : Prog A) (f : A -> Prog B) : Prog B :=
  match p with
  | Ret a => f a
  | Raise e => Raise e
  | GetTools k => GetTools (fun ts => bind (k ts) f)
  | LoadChatModel name k => LoadChatModel name (fun m => bind (k m) f)
  | UtcNowIso k => UtcNowIso (fun t => bind (k t) f)
  | StrFormat template t k => StrFormat template t (fun s => bind (k s) f)
  | Ainvoke m input k => Ainvoke m input (fun r => bind (k r) f)
  | InvokeTool t call k => InvokeTool t call (fun r => bind (k r) f)
  end.

Notation "'let*' x ':=' p 'in' q" := (bind p (fun x => q))
  (at level 10, x name, p at level 100, q at level 200).

Definition get_tools : Prog (list Tool) := GetTools Ret.
Definition load_chat_model (name : string) : Prog string := LoadChatModel name Ret.
Definition utc_now_iso : Prog string := UtcNowIso Ret.
Definition str_format (template system_time : string) : Prog string :=
  StrFormat template system_time Ret.
Definition ainvoke (m : BoundModel) (input : list AnyMessage) : Prog AIMessage :=
  Ainvoke m input Ret.
Definition invoke_tool (t : Tool) (call : ToolCall) : Prog ToolResult :=
  InvokeTool t call Ret.

(** The calls a node made, each with what it got back. *)
Inductive Event :=
| EvGetTools (answer : Outcome (list Tool))
| EvLoadChatModel (name : string) (answer : Outcome string)
| EvUtcNow (answer : string)
| EvStrFormat (template system_time : string) (answer : Outcome string)
| EvAinvoke (m : BoundModel) (input : list AnyMessage) (answer : Outcome AIMessage)
| EvInvokeTool (t : Tool) (call : ToolCall) (answer : ToolResult).

(** Handlers over a world [W].  The registry, the model loader, the model and
    [str.format] may raise; the clock does not; [str.format] is pure; a tool
    reports failure inside its result ([invoke_tool] "must not throw for
    ordinary tool-level failures"). *)
Record Handlers (W : Type) := mkHandlers {
  h_get_tools : W -> Outcome (list Tool) * W;
  h_load_chat_model : string -> W -> Outcome string * W;
  h_utc_now : W -> string * W;
  h_str_format : string -> string -> Outcome string;
  h_ainvoke : BoundModel -> list AnyMessage -> W -> Outcome AIMessage * W;
  h_invoke_tool : Tool -> ToolCall -> W -> ToolResult * W
}.
Arguments h_get_tools {W} _ _.
Arguments h_load_chat_model {W} _ _ _.
Arguments h_utc_now {W} _ _.
Arguments h_str_format {W} _ _ _.
Arguments h_ainvoke {W} _ _ _ _.
Arguments h_invoke_tool {W} _ _ _ _.

(** The result of running a program: its outcome, the world it leaves and
    the calls it made, oldest first. *)
Record Ran (W A : Type) := mkRan {
  ran_out : Outcome A;
  ran_world : W;
  ran_trace : list Event
}.
Arguments mkRan {W A} _ _ _.
Arguments ran_out {W A} _.
Arguments ran_world {W A} _.
Arguments ran_trace {W A} _.

Definition logged {W A} (ev : Event) (r : Ran W A) : Ran W A :=
  mkRan (ran_out r) (ran_world r) (ev :: ran_trace r).

Fixpoint interp {W A} (h : Handlers W) (p : Prog A) (w : W) : Ran W A :=
  match p with
  | Ret a => mkRan (Returned a) w []
  | Raise e => mkRan (Raised e) w []
  | GetTools k =>
      let '(answer, w1) := h_get_tools h w in
      logged (EvGetTools answer)
        match answer with
        | Returned ts => interp h (k ts) w1
        | Raised e => mkRan (Raised e) w1 []
        end
  | LoadChatModel name k =>
      let '(answer, w1) := h_load_chat_model h name w in
      logged (EvLoadChatModel name answer)
        match answer with
        | Returned m => interp h (k m) w1
        | Raised e => mkRan (Raised e) w1 []
        end
  | UtcNowIso k =>
      let '(t, w1) := h_utc_now h w in
      logged (EvUtcNow t) (interp h (k t) w1)
  | StrFormat template t k =>
      let answer := h_str_format h template t in
      logged (EvStrFormat template t answer)
        match answer with
        | Returned s => interp h (k s) w
        | Raised e => mkRan (Raised e) w []
        end
  | Ainvoke m input k =>
      let '(answer, w1) := h_ainvoke h m input w in
      logged (EvAinvoke m input answer)
        match answer with
        | Returned r => interp h (k r) w1
        | Raised e => mkRan (Raised e) w1 []
        end
  | InvokeTool t call k =>
      let '(r, w1) := h_invoke_tool h t call w in
      logged (EvInvokeTool t call r) (interp h (k r) w1)
  end.

(** ** The nodes *)

Definition budget_notice : string :=
  "Sorry, I could not find an answer to your question in the specified number of steps.".

(** The value of the ["messages"] key of the dict [call_model] returns. *)
Definition call_model (state : State) (context : Context) : Prog (list AnyMessage) :=
  (* Get available tools based on configuration *)
  let* available_tools := get_tools in
  (* Initialize the model with tool binding *)
  let* chat_model := load_chat_model (model context) in
  let model := bind_tools chat_model available_tools in
  (* Format the system prompt *)
  let* system_time := utc_now_iso in
  let* system_message := str_format (system_prompt context) system_time in
  (* Get the model's response *)
  let* response := ainvoke model (SystemMsg system_message :: messages state) in
  (* Handle the case when it's the last step and the model still wants to use a tool *)
  if is_last_step state && truthy (ai_tool_calls response) then
    Ret [AIMsg (new_AIMessage (ai_id response) budget_notice)]
  else
    (* Return the model's response as a list to be added to existing messages *)
    Ret [AIMsg response].

(** The assistant messages of a history, oldest first. *)
Definition assistant_messages (msgs : list AnyMessage) : list AIMessage :=
  omap (fun m => match m with AIMsg ai => Some ai | _ => None end) msgs.

(** Modelled from the spec: the body of [ToolNode.ainvoke]
    ([langgraph.prebuilt]) is not among the sources.  One request of the last
    Assistant message is executed: the tool is looked up by name among the
    available tools and invoked, and exactly one Tool Result message comes
    back, with the request's call identifier and tool name, the tool's output
    payload, and a failure indicator when the invocation failed or no such
    tool is available. *)
Definition run_tool_call (available_tools : list Tool) (call : ToolCall) : Prog ToolMessage :=
  match find (fun t => String.eqb (tool_name t) (tc_name call)) available_tools with
  | None =>
      Ret {| tm_content := "Error: " +:+ tc_name call +:+ " is not a valid tool";
             tm_name := Some (tc_name call);
             tm_tool_call_id := tc_id call;
             tm_status := status_error |}
  | Some t =>
      let* r := invoke_tool t call in
      Ret {| tm_content := tr_content r;
             tm_name := Some (tc_name call);
             tm_tool_call_id := tc_id call;
             tm_status := if tr_failed r then status_error else status_success |}
  end.

(** Modelled from the spec: the batch of [ToolNode.ainvoke]; one Tool Result
    message per request, in the order of the requests. *)
Fixpoint run_tool_calls (available_tools : list Tool) (calls : list ToolCall)
  : Prog (list AnyMessage) :=
  match calls with
  | [] => Ret []
  | call :: rest =>
      let* m := run_tool_call available_tools call in
      let* ms := run_tool_calls available_tools rest in
      Ret (ToolMsg m :: ms)
  end.

(** Modelled from the spec: [ToolNode(available_tools).ainvoke(state)], the
    Tool Executor over the pending tool-call requests of the last Assistant
    message of the state. *)
Definition tool_node_ainvoke (available_tools : list Tool) (state : State)
  : Prog (list AnyMessage) :=
  match last (assistant_messages (messages state)) with
  | None => Raise (ValueError "No AIMessage found in input")
  | Some ai => run_tool_calls available_tools (ai_tool_calls ai)
  end.

(** The value of the ["messages"] key of the dict [dynamic_tools_node] returns. *)
Definition dynamic_tools_node (state : State) : Prog (list AnyMessage) :=
  (* Get available tools based on configuration *)
  let* available_tools := get_tools in
  (* Create a ToolNode with the available tools and execute it *)
  tool_node_ainvoke available_tools state.

(** ** The graph *)

(** Modelled from the spec: the reducer of the [messages] channel
    ([react_agent/state.py] is not among the sources).  "The sequence never
    shrinks; messages are only appended": what a node returns is appended to
    the messages of the state. *)
Definition apply_update (state : State) (update : list AnyMessage) : State :=
  {| messages := messages state ++ update; is_last_step := is_last_step state |}.

Inductive Node :=
| Node_call_model
| Node_tools
| Node_end
| Node_failed (e : Exn).

(** A run in progress: the node scheduled next, the Conversation State and
    the step counter. *)
Record Run := mkRun {
  run_node : Node;
  run_messages : list AnyMessage;
  run_step : nat
}.

(** Modelled from the spec: [is_last_step] is "true when the step counter
    reaches the configured maximum on the current iteration". *)
Definition state_of (max_steps : nat) (r : Run) : State :=
  {| messages := run_messages r; is_last_step := Nat.leb max_steps (run_step r) |}.

(** [builder.add_edge("__start__", "call_model")]; the counter counts the
    reasoning invocations, the first one included. *)
Definition start (input : list AnyMessage) : Run :=
  {| run_node := Node_call_model; run_messages := input; run_step := 1 |}.

Section Graph.
Variable W : Type.
Variable h : Handlers W.
Variable context : Context.
Variable max_steps : nat.

(** One node and the edge that leaves it:
    [add_conditional_edges("call_model", route_model_output)] and
    [add_edge("tools", "call_model")].  An exception ends the run. *)
Definition graph_step (r : Run) (w : W) : Run * W :=
  match run_node r with
  | Node_call_model =>
      let ran := interp h (call_model (state_of max_steps r) context) w in
      match ran_out ran with
      | Raised e => (mkRun (Node_failed e) (run_messages r) (run_step r), ran_world ran)
      | Returned update =>
          let state' := apply_update (state_of max_steps r) update in
          let next :=
            match route_model_output state' with
            | Returned Route_end => Node_end
            | Returned Route_tools => Node_tools
            | Raised e => Node_failed e
            end in
          (mkRun next (messages state') (run_step r), ran_world ran)
      end
  | Node_tools =>
      let ran := interp h (dynamic_tools_node (state_of max_steps r)) w in
      match ran_out ran with
      | Raised e => (mkRun (Node_failed e) (run_messages r) (run_step r), ran_world ran)
      | Returned update =>
          let state' := apply_update (state_of max_steps r) update in
          (mkRun Node_call_model (messages state') (S (run_step r)), ran_world ran)
      end
  | Node_end | Node_failed _ => (r, w)
  end.

Fixpoint run_graph (fuel : nat) (r : Run) (w : W) : Run * W :=
  match fuel with
  | 0 => (r, w)
  | S fuel' => let '(r', w') := graph_step r w in run_graph fuel' r' w'
  end.
End Graph.
Arguments graph_step {W} h context max_steps r w.
Arguments run_graph {W} h context max_steps fuel r w.

(** ** A scripted world

    Concrete handlers to run the nodes on: the registry answers with the tool
    sets of a list in turn (the last one for good), the model with the
    responses of a script, the clock ticks, and every tool but the calculator
    fails. *)

Record World := mkWorld {
  w_registry : list (list Tool);
  w_script : list AIMessage;
  w_clock : nat
}.

Definition scripted_get_tools (w : World) : Outcome (list Tool) * World :=
  match w_registry w with
  | [] => (Raised (BackendError "no tool configuration"), w)
  | [ts] => (Returned ts, w)
  | ts :: rest => (Returned ts, mkWorld rest (w_script w) (w_clock w))
  end.

Definition scripted_now (w : World) : string * World :=
  (match w_clock w with
   | 0 => "2026-01-01T00:00:00+00:00"
   | _ => "2026-01-01T00:00:01+00:00"
   end,
   mkWorld (w_registry w) (w_script w) (S (w_clock w))).

(** Fills the first [{system_time}] of a template. *)
Definition fill_system_time (template system_time : string) : Outcome string :=
  match String.index 0 "{system_time}" template with
  | Some i =>
      Returned (String.substring 0 i template +:+ system_time
                +:+ String.substring (i + 13) (String.length template - (i + 13)) template)
  | None => Returned template
  end.

Definition scripted_ainvoke (m : BoundModel) (input : list AnyMessage) (w : World)
  : Outcome AIMessage * World :=
  match w_script w with
  | [] => (Raised (BackendError "model backend unavailable"), w)
  | r :: rest => (Returned r, mkWorld (w_registry w) rest (w_clock w))
  end.

Definition scripted_invoke_tool (t : Tool) (call : ToolCall) (w : World)
  : ToolResult * World :=
  (if String.eqb (tool_name t) "calculator"
   then {| tr_content := "4"; tr_failed := false |}
   else {| tr_content := "tool failed"; tr_failed := true |},
   w).

Definition scripted : Handlers World :=
  {| h_get_tools := scripted_get_tools;
     h_load_chat_model := fun name w => (Returned name, w);
     h_utc_now := scripted_now;
     h_str_format := fill_system_time;
     h_ainvoke := scripted_ainvoke;
     h_invoke_tool := scripted_invoke_tool |}.

Definition calculator : Tool := mkTool "calculator" "Evaluate an arithmetic expression".
Definition search : Tool := mkTool "search" "Search the web".

Definition call_calc : ToolCall := mkToolCall "calculator" [("expr", "2+2")] "call_1".

(** A response that asks for the calculator, as a backend returns it. *)
Definition ask_calc : AIMessage :=
  {| ai_content := "";
     ai_id := Some "run-1";
     ai_name := None;
     ai_tool_calls := [call_calc];
     ai_invalid_tool_calls := [];
     ai_additional_kwargs := [];
     ai_response_metadata := [("finish_reason", "tool_calls")];
     ai_usage_metadata := Some (mkUsage 12 7 19) |}.


Definition answer_four : AIMessage := new_AIMessage (Some "run-2") "4".

Definition demo_context : Context :=
  {| model := "provider/chat-model"; system_prompt := "You are helpful. Time: {system_time}" |}.

Definition demo_world (script : list AIMessage) : World :=
  mkWorld [[calculator; search]] script 0.

Definition question : list AnyMessage := [HumanMsg "2+2?"].

(** ** Vocabulary of the statements *)

(** What [call_model] returns once the model has answered [response]. *)
Definition call_model_reply (state : State) (response : AIMessage) : list AnyMessage :=
  if is_last_step state && truthy (ai_tool_calls response)
  then [AIMsg (new_AIMessage (ai_id response) budget_notice)]
  else [AIMsg response].

(** The collaborators answered, one after the other from the world [w], with
    the tools [ts], the chat model [cm], the time [t] and the system message
    [sys], and the model, invoked with [ts] bound and the system message in
    front of the history, gave [answer] and left the world [w']. *)
Definition model_called {W} (h : Handlers W) (state : State) (context : Context) (w : W)
    (ts : list Tool) (cm t sys : string) (answer : Outcome AIMessage) (w' : W) : Prop :=
  exists w1 w2 w3,
    h_get_tools h w = (Returned ts, w1) /\
    h_load_chat_model h (model context) w1 = (Returned cm, w2) /\
    h_utc_now h w2 = (t, w3) /\
    h_str_format h (system_prompt context) t = Returned sys /\
    h_ainvoke h (bind_tools cm ts) (SystemMsg sys :: messages state) w3 = (answer, w').

(** A response of which only the content and the tool-call requests are
    replaced: every other field is the response's. *)
Definition only_content_and_tool_calls_replaced
    (response : AIMessage) (content : string) (calls : list ToolCall) : AIMessage :=
  {| ai_content := content;
     ai_id := ai_id response;
     ai_name := ai_name response;
     ai_tool_calls := calls;
     ai_invalid_tool_calls := ai_invalid_tool_calls response;
     ai_additional_kwargs := ai_additional_kwargs response;
     ai_response_metadata := ai_response_metadata response;
     ai_usage_metadata := ai_usage_metadata response |}.

Definition is_get_tools (ev : Event) : bool :=
  match ev with EvGetTools _ => true | _ => false end.

(** The name of [call] resolves to no available tool. *)
Definition unknown_tool (available_tools : list Tool) (call : ToolCall) : Prop :=
  find (fun t => String.eqb (tool_name t) (tc_name call)) available_tools = None.

(** [tm] is the Tool Result message of the request [call]. *)
Definition result_of (available_tools : list Tool) (call : ToolCall) (tm : ToolMessage) : Prop :=
  tm_tool_call_id tm = tc_id call /\
  tm_name tm = Some (tc_name call) /\
  (unknown_tool available_tools call -> tm_status tm = status_error).

(** [tm] carries what the invocation of [call] handed back: its payload, and
    the failure indicator when it failed. *)
Definition reports (r : ToolResult) (call : ToolCall) (tm : ToolMessage) : Prop :=
  tm_tool_call_id tm = tc_id call /\
  tm_content tm = tr_content r /\
  tm_status tm = (if tr_failed r then status_error else status_success).

(** A registry whose configuration changes after the first query. *)
Definition changing_world (script : list AIMessage) : World :=
  mkWorld [[calculator; search]; [search]] script 0.

(** The exception a collaborator answered a call with, if it did. *)
Definition event_raised (ev : Event) : option Exn :=
  match ev with
  | EvGetTools (Raised e) => Some e
  | EvLoadChatModel _ (Raised e) => Some e
  | EvStrFormat _ _ (Raised e) => Some e
  | EvAinvoke _ _ (Raised e) => Some e
  | _ => None
  end.

Definition is_ainvoke (ev : Event) : bool :=
  match ev with EvAinvoke _ _ _ => true | _ => false end.

(** The number of model invocations in a trace. *)
Definition model_invocations (trace : list Event) : nat :=
  length (List.filter is_ainvoke trace).

(** The last message is an Assistant message that requests tool calls. *)
Definition pending_tool_calls (msgs : list AnyMessage) : Prop :=
  exists ai, last msgs = Some (AIMsg ai) /\ ai_tool_calls ai <> [].

(** The last message is an Assistant message that requests none. *)
Definition final_answer (msgs : list AnyMessage) : Prop :=
  exists ai, last msgs = Some (AIMsg ai) /\ ai_tool_calls ai = [].

(** The run is over: the graph reached [__end__] or a node raised. *)
Definition terminal (n : Node) : bool :=
  match n with
  | Node_end | Node_failed _ => true
  | Node_call_model | Node_tools => false
  end.

(** What holds of every run the graph schedules from [__start__]: the action
    node is scheduled only on pending tool calls and with budget left, and
    the run ends only on a final answer. *)
Definition well_scheduled (max_steps : nat) (r : Run) : Prop :=
  match run_node r with
  | Node_tools => pending_tool_calls (run_messages r) /\ run_step r < max_steps
  | Node_end => final_answer (run_messages r)
  | Node_call_model | Node_failed _ => True
  end.

(** Graph steps a run may still need. *)
Definition steps_left (max_steps : nat) (r : Run) : nat :=
  match run_node r with
  | Node_call_model => S (2 * (max_steps - run_step r))
  | Node_tools => 2 * (max_steps - run_step r)
  | Node_end | Node_failed _ => 0
  end.

(** * Properties *)

(** ** The routing decision *)

Lemma py_last_Some {A} (l : list A) (x : A) :
  last l = Some x -> py_last l = Returned x.
Proof. intros H. unfold py_last. now rewrite H. Qed.

Lemma py_last_nil {A} : @py_last A [] = Raised (IndexError "list index out of range").
Proof. reflexivity. Qed.

Lemma last_nonempty {A} (l : list A) : l <> [] -> exists x, last l = Some x.
Proof.
  intros Hne. destruct (last l) as [x|] eqn:E; [now exists x|].
  apply last_None in E. contradiction.
Qed.

Lemma truthy_false {A} (l : list A) : truthy l = false <-> l = [].
Proof. destruct l; simpl; split; congruence. Qed.

Lemma truthy_true {A} (l : list A) : truthy l = true <-> l <> [].
Proof. destruct l; simpl; split; congruence. Qed.

(** What the edge does once [messages[-1]] is known. *)
Lemma route_model_output_on_last (state : State) (m : AnyMessage) :
  last (messages state) = Some m ->
  route_model_output state =
    match m with
    | AIMsg ai => if truthy (ai_tool_calls ai) then Returned Route_tools else Returned Route_end
    | _ => Raised (InvalidState m)
    end.
Proof.
  intros H. unfold route_model_output. rewrite (py_last_Some _ _ H).
  destruct m as [c|c|ai|t]; try reflexivity.
  now destruct (truthy (ai_tool_calls ai)).
Qed.

Lemma route_model_output_on_empty (state : State) :
  messages state = [] ->
  route_model_output state = Raised (IndexError "list index out of range").
Proof. intros H. unfold route_model_output. now rewrite H. Qed.

(** The edge reads nothing but the last message. *)
Lemma route_model_output_ext (s1 s2 : State) :
  last (messages s1) = last (messages s2) ->
  route_model_output s1 = route_model_output s2.
Proof.
  intros H. unfold route_model_output, py_last. now rewrite H.
Qed.

(** C2: on a state whose last message is an Assistant message, the routing
    decision returns the terminal route when the message requests no tool
    call, and the action route when it requests at least one and the cycle is
    not the last permitted step. *)
Theorem route_model_output_assistant (state : State) (ai : AIMessage) :
  last (messages state) = Some (AIMsg ai) ->
  (ai_tool_calls ai = [] -> route_model_output state = Returned Route_end) /\
  (ai_tool_calls ai <> [] -> is_last_step state = false ->
   route_model_output state = Returned Route_tools).
Proof.
  intros Hlast. rewrite (route_model_output_on_last _ _ Hlast). split.
  - intros Hnil. now rewrite Hnil.
  - intros Hne _. apply truthy_true in Hne. now rewrite Hne.
Qed.

Lemma route_model_output_assistant_witness :
  route_model_output (mkState (question ++ [AIMsg answer_four]) false) = Returned Route_end /\
  route_model_output (mkState (question ++ [AIMsg ask_calc]) false) = Returned Route_tools.
Proof.
  split.
  - apply (route_model_output_assistant
             (mkState (question ++ [AIMsg answer_four]) false) answer_four);
      reflexivity.
  - apply (route_model_output_assistant
             (mkState (question ++ [AIMsg ask_calc]) false) ask_calc);
      [reflexivity | discriminate | reflexivity].
Defined.

(** C3: on a state whose last message is not an Assistant message, the
    routing decision raises [InvalidState] (the [ValueError] naming the type
    of that message) and returns no route; on the states that have a last
    message it raises nothing else.  (The state without messages is the
    subject of C10.) *)
Theorem route_model_output_invalid_state (state : State) (last_message : AnyMessage) :
  last (messages state) = Some last_message ->
  isinstance_AIMessage last_message = false ->
  route_model_output state = Raised (InvalidState last_message) /\
  (forall r, route_model_output state <> Returned r) /\
  (forall state' e,
      messages state' <> [] ->
      route_model_output state' = Raised e ->
      exists m, last (messages state') = Some m /\
                isinstance_AIMessage m = false /\
                e = InvalidState m).
Proof.
  intros Hlast Hnot.
  assert (Hr : route_model_output state = Raised (InvalidState last_message)).
  { rewrite (route_model_output_on_last _ _ Hlast).
    destruct last_message; try reflexivity. discriminate Hnot. }
  split; [exact Hr|]. split.
  - intros r. rewrite Hr. discriminate.
  - intros state' e Hne Hraised.
    destruct (last_nonempty _ Hne) as [m Hm]. exists m.
    rewrite (route_model_output_on_last _ _ Hm) in Hraised.
    destruct m as [c|c|ai|t]; simpl.
    + now inversion Hraised.
    + now inversion Hraised.
    + destruct (truthy (ai_tool_calls ai)); discriminate Hraised.
    + now inversion Hraised.
Qed.

Lemma route_model_output_invalid_state_witness :
  route_model_output (mkState question true) =
    Raised (ValueError "Expected AIMessage in output edges, but got HumanMessage").
Proof.
  apply (route_model_output_invalid_state (mkState question true) (HumanMsg "2+2?"));
    reflexivity.
Defined.

(** C6: the routing decision is a function of the last message alone: two
    states with equal last messages get the same route, or the same error,
    whatever their earlier messages and their [is_last_step] are. *)
Theorem route_model_output_pure (s1 s2 : State) :
  last (messages s1) = last (messages s2) ->
  route_model_output s1 = route_model_output s2.
Proof. apply route_model_output_ext. Qed.

Lemma route_model_output_pure_witness :
  route_model_output (mkState [AIMsg ask_calc] true) =
  route_model_output (mkState (question ++ [ToolMsg (mkToolMessage "4" None "c" status_success);
                                            AIMsg ask_calc]) false).
Proof.
  apply (route_model_output_pure
           (mkState [AIMsg ask_calc] true)
           (mkState (question ++ [ToolMsg (mkToolMessage "4" None "c" status_success);
                                  AIMsg ask_calc]) false)).
  reflexivity.
Defined.

(** C10: the routing decision reads [messages[-1]] and nothing else of the
    state.  With at least one message the access succeeds and the decision
    is the one the last message fixes; with no message the access fails with
    [IndexError] and no route is returned. *)
Theorem route_model_output_needs_message (state : State) :
  (messages state <> [] ->
   exists m, py_last (messages state) = Returned m /\
             last (messages state) = Some m /\
             (forall state', last (messages state') = Some m ->
                             route_model_output state' = route_model_output state) /\
             (forall msg, route_model_output state <> Raised (IndexError msg))) /\
  (messages state = [] ->
   py_last (messages state) = Raised (IndexError "list index out of range") /\
   route_model_output state = Raised (IndexError "list index out of range") /\
   forall r, route_model_output state <> Returned r).
Proof.
  split.
  - intros Hne. destruct (last_nonempty _ Hne) as [m Hm]. exists m.
    split; [now apply py_last_Some|]. split; [exact Hm|]. split.
    + intros state' Hm'. apply route_model_output_ext. congruence.
    + intros msg. rewrite (route_model_output_on_last _ _ Hm).
      destruct m as [c|c|ai|t]; try discriminate.
      destruct (truthy (ai_tool_calls ai)); discriminate.
  - intros Hnil. rewrite (route_model_output_on_empty _ Hnil), Hnil.
    split; [reflexivity|]. split; [reflexivity|]. intros r. discriminate.
Qed.

Lemma route_model_output_needs_message_witness :
  (exists m, py_last question = Returned m) /\
  route_model_output (mkState [] false) = Raised (IndexError "list index out of range").
Proof.
  split.
  - destruct (proj1 (route_model_output_needs_message (mkState question false)))
      as [m [Hm _]]; [discriminate|]. exists m. exact Hm.
  - apply (proj2 (route_model_output_needs_message (mkState [] false))). reflexivity.
Defined.

(** ** Running programs *)

Lemma interp_bind {W A B} (h : Handlers W) (p : Prog A) (f : A -> Prog B) (w : W) :
  interp h (bind p f) w =
    match ran_out (interp h p w) with
    | Returned a =>
        let r2 := interp h (f a) (ran_world (interp h p w)) in
        mkRan (ran_out r2) (ran_world r2) (ran_trace (interp h p w) ++ ran_trace r2)
    | Raised e => mkRan (Raised e) (ran_world (interp h p w)) (ran_trace (interp h p w))
    end.
Proof.
  revert w. induction p as [a|e|k IH|name k IH|k IH|tpl t k IH|m input k IH|t call k IH];
    intros w; cbn [bind interp ran_out ran_world ran_trace logged app].
  - now destruct (interp h (f a) w).
  - reflexivity.
  - destruct (h_get_tools h w) as [[ts|e] w1]; [|reflexivity].
    rewrite IH. unfold logged. cbn [ran_out ran_world ran_trace].
    now destruct (ran_out (interp h (k ts) w1)).
  - destruct (h_load_chat_model h name w) as [[cm|e] w1]; [|reflexivity].
    rewrite IH. unfold logged. cbn [ran_out ran_world ran_trace].
    now destruct (ran_out (interp h (k cm) w1)).
  - destruct (h_utc_now h w) as [now w1].
    rewrite IH. unfold logged. cbn [ran_out ran_world ran_trace].
    now destruct (ran_out (interp h (k now) w1)).
  - destruct (h_str_format h tpl t) as [sys|e]; [|reflexivity].
    rewrite IH. unfold logged. cbn [ran_out ran_world ran_trace].
    now destruct (ran_out (interp h (k sys) w)).
  - destruct (h_ainvoke h m input w) as [[r|e] w1]; [|reflexivity].
    rewrite IH. unfold logged. cbn [ran_out ran_world ran_trace].
    now destruct (ran_out (interp h (k r) w1)).
  - destruct (h_invoke_tool h t call w) as [r w1].
    rewrite IH. unfold logged. cbn [ran_out ran_world ran_trace].
    now destruct (ran_out (interp h (k r) w1)).
Qed.

Ltac handler_cases :=
  repeat (cbn [interp bind logged ran_out ran_world ran_trace] in *;
    match goal with
    | |- context [h_get_tools ?h ?w] =>
        let E := fresh "Etools" in destruct (h_get_tools h w) as [[?ts|?e] ?w] eqn:E
    | |- context [h_load_chat_model ?h ?n ?w] =>
        let E := fresh "Eload" in destruct (h_load_chat_model h n w) as [[?cm|?e] ?w] eqn:E
    | |- context [h_utc_now ?h ?w] =>
        let E := fresh "Enow" in destruct (h_utc_now h w) as [?t ?w] eqn:E
    | |- context [h_str_format ?h ?a ?b] =>
        let E := fresh "Efmt" in destruct (h_str_format h a b) as [?sys|?e] eqn:E
    | |- context [h_ainvoke ?h ?m ?i ?w] =>
        let E := fresh "Einv" in destruct (h_ainvoke h m i w) as [[?r|?e] ?w] eqn:E
    | |- context [interp _ (if ?b then _ else _) _] => destruct b eqn:?
    end).

Ltac unfold_call_model :=
  unfold call_model, get_tools, load_chat_model, utc_now_iso, str_format, ainvoke.

(** ** The reasoning node *)

(** [call_model] returns only after every collaborator answered. *)
Lemma call_model_returned {W} (h : Handlers W) state context w update :
  ran_out (interp h (call_model state context) w) = Returned update ->
  exists ts cm t sys r w',
    model_called h state context w ts cm t sys (Returned r) w' /\
    ran_world (interp h (call_model state context) w) = w' /\
    update = call_model_reply state r.
Proof.
  unfold_call_model. unfold call_model_reply.
  handler_cases; intros Hout; try discriminate Hout.
  all: inversion Hout; subst; do 6 eexists;
    (split; [do 3 eexists; eauto 10|]); split; try reflexivity.
  all: match goal with H : _ && _ = _ |- _ => now rewrite H end.
Qed.

(** A model invocation in the trace of [call_model] fixes the whole run. *)
Lemma call_model_invoked {W} (h : Handlers W) state context w bm input answer :
  In (EvAinvoke bm input answer) (ran_trace (interp h (call_model state context) w)) ->
  exists ts cm t sys w',
    model_called h state context w ts cm t sys answer w' /\
    bm = bind_tools cm ts /\
    input = SystemMsg sys :: messages state /\
    ran_trace (interp h (call_model state context) w) =
      [EvGetTools (Returned ts); EvLoadChatModel (model context) (Returned cm);
       EvUtcNow t; EvStrFormat (system_prompt context) t (Returned sys);
       EvAinvoke bm input answer] /\
    ran_out (interp h (call_model state context) w) =
      match answer with
      | Returned r => Returned (call_model_reply state r)
      | Raised e => Raised e
      end.
Proof.
  unfold_call_model. unfold call_model_reply. handler_cases; simpl; intros Hin.
  all: repeat (destruct Hin as [Hin|Hin]; try discriminate Hin); try contradiction.
  all: inversion Hin; subst.
  all: do 5 eexists; (split; [do 3 eexists; eauto 10|]); repeat split; try reflexivity.
  all: match goal with H : _ && _ = _ |- _ => now rewrite H end.
Qed.

(** The first call of [call_model] is the registry query, and the only one. *)
Lemma call_model_trace_head {W} (h : Handlers W) state context w :
  exists rest,
    ran_trace (interp h (call_model state context) w) =
      EvGetTools (fst (h_get_tools h w)) :: rest /\
    Forall (fun ev => is_get_tools ev = false) rest.
Proof.
  unfold_call_model. handler_cases; simpl.
  all: eexists; split; [reflexivity|]; repeat constructor.
Qed.

Lemma call_model_reply_last_step state response :
  is_last_step state = true ->
  ai_tool_calls response <> [] ->
  call_model_reply state response = [AIMsg (new_AIMessage (ai_id response) budget_notice)].
Proof.
  intros Hlast Hcalls. unfold call_model_reply.
  apply truthy_true in Hcalls. now rewrite Hlast, Hcalls.
Qed.

Lemma call_model_reply_assistant state response :
  Forall (fun m => isinstance_SystemMessage m = false) (call_model_reply state response).
Proof.
  unfold call_model_reply.
  destruct (is_last_step state && truthy (ai_tool_calls response)); repeat constructor.
Qed.

(** ** The Tool Executor *)

Lemma run_tool_call_ran {W} (h : Handlers W) (ts : list Tool) (call : ToolCall) (w : W) :
  exists tm,
    ran_out (interp h (run_tool_call ts call) w) = Returned tm /\
    result_of ts call tm /\
    (forall t c r,
        In (EvInvokeTool t c r) (ran_trace (interp h (run_tool_call ts call) w)) ->
        c = call /\ In t ts /\ reports r call tm) /\
    Forall (fun ev => is_get_tools ev = false)
           (ran_trace (interp h (run_tool_call ts call) w)).
Proof.
  unfold run_tool_call, result_of, unknown_tool, reports, invoke_tool.
  destruct (find _ ts) as [t|] eqn:Efind; cbn [interp bind].
  - destruct (h_invoke_tool h t call w) as [r w1]. simpl.
    eexists. split; [reflexivity|]. simpl. split; [|split].
    + repeat split; try reflexivity. discriminate.
    + intros t' c r' [Hev|[]]. inversion Hev; subst.
      apply find_some in Efind. tauto.
    + repeat constructor.
  - eexists. split; [reflexivity|]. simpl. split; [|split].
    + repeat split; reflexivity.
    + intros t' c r [].
    + constructor.
Qed.

Lemma run_tool_calls_ran {W} (h : Handlers W) (ts : list Tool) (calls : list ToolCall) :
  forall w : W,
  exists results,
    ran_out (interp h (run_tool_calls ts calls) w) = Returned (map ToolMsg results) /\
    Forall2 (result_of ts) calls results /\
    (forall t c r,
        In (EvInvokeTool t c r) (ran_trace (interp h (run_tool_calls ts calls) w)) ->
        In c calls /\ In t ts /\ exists tm, In tm results /\ reports r c tm) /\
    Forall (fun ev => is_get_tools ev = false)
           (ran_trace (interp h (run_tool_calls ts calls) w)).
Proof.
  induction calls as [|call rest IH]; intros w.
  - exists []. simpl. split; [reflexivity|]. split; [constructor|].
    split; [intros t c r []|constructor].
  - cbn [run_tool_calls]. rewrite interp_bind.
    destruct (run_tool_call_ran h ts call w) as (tm & Hout & Hres & Hev & Hng).
    rewrite Hout. cbn zeta. rewrite interp_bind.
    destruct (IH (ran_world (interp h (run_tool_call ts call) w)))
      as (results & Hout' & Hres' & Hev' & Hng').
    rewrite Hout'. simpl. rewrite app_nil_r.
    exists (tm :: results). split; [reflexivity|]. split; [|split].
    + now constructor.
    + intros t c r Hin. apply in_app_or in Hin. destruct Hin as [Hin|Hin].
      * destruct (Hev _ _ _ Hin) as (-> & Ht & Hrep).
        split; [now left|]. split; [exact Ht|]. exists tm. split; [now left|exact Hrep].
      * destruct (Hev' _ _ _ Hin) as (Hc & Ht & tm' & Htm' & Hrep).
        split; [now right|]. split; [exact Ht|]. exists tm'. split; [now right|exact Hrep].
    + apply Forall_app. split; assumption.
Qed.

(** [dynamic_tools_node] once the registry answered. *)
Lemma dynamic_tools_node_ran {W} (h : Handlers W) (state : State) (w w1 : W) ts :
  h_get_tools h w = (Returned ts, w1) ->
  interp h (dynamic_tools_node state) w =
    logged (EvGetTools (Returned ts)) (interp h (tool_node_ainvoke ts state) w1).
Proof.
  intros Htools. unfold dynamic_tools_node, get_tools. cbn [bind interp].
  rewrite Htools. reflexivity.
Qed.

Lemma dynamic_tools_node_trace_head {W} (h : Handlers W) (state : State) (w : W) :
  exists rest,
    ran_trace (interp h (dynamic_tools_node state) w) =
      EvGetTools (fst (h_get_tools h w)) :: rest /\
    Forall (fun ev => is_get_tools ev = false) rest /\
    (forall t c r, In (EvInvokeTool t c r) rest ->
                   exists ts, fst (h_get_tools h w) = Returned ts /\ In t ts).
Proof.
  destruct (h_get_tools h w) as [[ts|e] w1] eqn:Htools.
  - rewrite (dynamic_tools_node_ran _ _ _ _ _ Htools). simpl.
    eexists. split; [reflexivity|].
    unfold tool_node_ainvoke. destruct (last _) as [ai|]; simpl.
    + destruct (run_tool_calls_ran h ts (ai_tool_calls ai) w1) as (rs & _ & _ & Hev & Hng).
      split; [exact Hng|]. intros t c r Hin. exists ts. split; [reflexivity|].
      now destruct (Hev _ _ _ Hin) as (_ & Ht & _).
    + split; [constructor|]. intros t c r [].
  - unfold dynamic_tools_node, get_tools. cbn [bind interp]. rewrite Htools. simpl.
    eexists. split; [reflexivity|]. split; [constructor|]. intros t c r [].
Qed.

(** ** Claims about the reasoning node *)



(** Once the collaborators answered, the model was invoked, with the tools of
    the registry bound and the system message in front of the history. *)
Lemma call_model_invokes_bound {W} (h : Handlers W) state context w ts cm t sys answer w' :
  model_called h state context w ts cm t sys answer w' ->
  ran_trace (interp h (call_model state context) w) =
    [EvGetTools (Returned ts); EvLoadChatModel (model context) (Returned cm);
     EvUtcNow t; EvStrFormat (system_prompt context) t (Returned sys);
     EvAinvoke (bind_tools cm ts) (SystemMsg sys :: messages state) answer].
Proof.
  intros (w1 & w2 & w3 & H1 & H2 & H3 & H4 & H5).
  unfold_call_model. cbn [interp bind]. rewrite H1. cbn [interp bind]. rewrite H2.
  cbn [interp bind]. rewrite H3. cbn [interp bind]. rewrite H4.
  cbn [interp bind]. rewrite H5. destruct answer as [r|e]; simpl; [|reflexivity].
  now destruct (is_last_step state && truthy (ai_tool_calls r)).
Qed.

(** C7: every run of [call_model] begins by querying the registry in the
    world it is started in, and queries it once.  Once the registry, the
    model loader, the clock and the formatting answered, the model is
    invoked, with exactly the tools that query returned bound to it; in
    particular [call_model] never returns without such an invocation, and no
    invocation is offered any other tool set.  [dynamic_tools_node] queries
    the registry the same way and invokes only tools of the set it got.
    Nothing is carried over from an earlier cycle. *)
Theorem nodes_query_registry_afresh {W} (h : Handlers W) state context w :
  (exists rest,
      ran_trace (interp h (call_model state context) w) =
        EvGetTools (fst (h_get_tools h w)) :: rest /\
      Forall (fun ev => is_get_tools ev = false) rest) /\
  (forall bm input answer,
      In (EvAinvoke bm input answer) (ran_trace (interp h (call_model state context) w)) ->
      fst (h_get_tools h w) = Returned (bm_tools bm)) /\
  (forall ts cm t sys answer w',
      model_called h state context w ts cm t sys answer w' ->
      fst (h_get_tools h w) = Returned ts /\
      bm_tools (bind_tools cm ts) = ts /\
      In (EvAinvoke (bind_tools cm ts) (SystemMsg sys :: messages state) answer)
         (ran_trace (interp h (call_model state context) w))) /\
  (forall update,
      ran_out (interp h (call_model state context) w) = Returned update ->
      exists ts bm input response,
        fst (h_get_tools h w) = Returned ts /\
        bm_tools bm = ts /\
        In (EvAinvoke bm input (Returned response))
           (ran_trace (interp h (call_model state context) w))) /\
  (exists rest,
      ran_trace (interp h (dynamic_tools_node state) w) =
        EvGetTools (fst (h_get_tools h w)) :: rest /\
      Forall (fun ev => is_get_tools ev = false) rest /\
      (forall t c r, In (EvInvokeTool t c r) rest ->
                     exists ts, fst (h_get_tools h w) = Returned ts /\ In t ts)).
Proof.
  split; [apply call_model_trace_head|].
  split; [|split; [|split; [|apply dynamic_tools_node_trace_head]]].
  - intros bm input answer Hin.
    destruct (call_model_invoked _ _ _ _ _ _ _ Hin)
      as (ts & cm & t & sys & w' & (w1 & w2 & w3 & Htools & _) & -> & _).
    now rewrite Htools.
  - intros ts cm t sys answer w' Hcalled.
    rewrite (call_model_invokes_bound _ _ _ _ _ _ _ _ _ _ Hcalled).
    destruct Hcalled as (w1 & w2 & w3 & Htools & _). rewrite Htools.
    split; [reflexivity|]. split; [reflexivity|]. simpl. tauto.
  - intros update Hout.
    destruct (call_model_returned _ _ _ _ _ Hout)
      as (ts & cm & t & sys & r & w' & Hcalled & _ & _).
    exists ts, (bind_tools cm ts), (SystemMsg sys :: messages state), r.
    rewrite (call_model_invokes_bound _ _ _ _ _ _ _ _ _ _ Hcalled).
    destruct Hcalled as (w1 & w2 & w3 & Htools & _). rewrite Htools.
    split; [reflexivity|]. split; [reflexivity|]. simpl. tauto.
Qed.

Lemma nodes_query_registry_afresh_witness :
  In (EvAinvoke (bind_tools "provider/chat-model" [calculator; search])
        (SystemMsg "You are helpful. Time: 2026-01-01T00:00:00+00:00" :: question)
        (Returned ask_calc))
     (ran_trace (interp scripted (call_model (mkState question false) demo_context)
                   (changing_world [ask_calc; answer_four]))) /\
  In (EvAinvoke (bind_tools "provider/chat-model" [search])
        (SystemMsg "You are helpful. Time: 2026-01-01T00:00:01+00:00"
           :: question ++ [AIMsg ask_calc])
        (Returned answer_four))
     (ran_trace (interp scripted
                   (call_model (mkState (question ++ [AIMsg ask_calc]) false) demo_context)
                   (ran_world (interp scripted
                                 (call_model (mkState question false) demo_context)
                                 (changing_world [ask_calc; answer_four]))))).
Proof.
  split.
  - apply (proj1 (proj2 (proj2 (nodes_query_registry_afresh scripted
                                  (mkState question false) demo_context
                                  (changing_world [ask_calc; answer_four]))))
             [calculator; search] "provider/chat-model" "2026-01-01T00:00:00+00:00"
             "You are helpful. Time: 2026-01-01T00:00:00+00:00" (Returned ask_calc)
             (mkWorld [[search]] [answer_four] 1)).
    do 3 eexists.
    split; [reflexivity|]. split; [reflexivity|]. split; [reflexivity|].
    split; reflexivity.
  - apply (proj1 (proj2 (proj2 (nodes_query_registry_afresh scripted
                                  (mkState (question ++ [AIMsg ask_calc]) false) demo_context
                                  (ran_world (interp scripted
                                                (call_model (mkState question false)
                                                            demo_context)
                                                (changing_world [ask_calc; answer_four]))))))
             [search] "provider/chat-model" "2026-01-01T00:00:01+00:00"
             "You are helpful. Time: 2026-01-01T00:00:01+00:00" (Returned answer_four)
             (mkWorld [[search]] [] 2)).
    do 3 eexists.
    split; [reflexivity|]. split; [reflexivity|]. split; [reflexivity|].
    split; reflexivity.
Defined.

(** C8: the system message [call_model] hands to the model is made in that
    call from the template of the context and the time read in that call,
    and stands in front of the messages of the state; the messages
    [call_model] returns contain no system message, so appending them adds
    none to the Conversation State. *)
Theorem call_model_system_message_not_persisted {W} (h : Handlers W) state context w :
  (forall bm input answer,
      In (EvAinvoke bm input answer) (ran_trace (interp h (call_model state context) w)) ->
      exists system_time sys,
        In (EvUtcNow system_time) (ran_trace (interp h (call_model state context) w)) /\
        h_str_format h (system_prompt context) system_time = Returned sys /\
        input = SystemMsg sys :: messages state) /\
  (forall update,
      ran_out (interp h (call_model state context) w) = Returned update ->
      Forall (fun m => isinstance_SystemMessage m = false) update /\
      (forall m, In m (messages (apply_update state update)) ->
                 isinstance_SystemMessage m = true -> In m (messages state))).
Proof.
  split.
  - intros bm input answer Hin.
    destruct (call_model_invoked _ _ _ _ _ _ _ Hin)
      as (ts & cm & t & sys & w' & (w1 & w2 & w3 & _ & _ & _ & Hfmt & _) & _ & -> & Htr & _).
    exists t, sys. rewrite Htr. split; [|split; [exact Hfmt|reflexivity]].
    simpl. tauto.
  - intros update Hout.
    destruct (call_model_returned _ _ _ _ _ Hout) as (ts & cm & t & sys & r & w' & _ & _ & ->).
    pose proof (call_model_reply_assistant state r) as Hno.
    split; [exact Hno|].
    intros m Hin Hsys. simpl in Hin. apply in_app_or in Hin. destruct Hin as [Hin|Hin]; [exact Hin|].
    rewrite Forall_forall in Hno. apply list_elem_of_In in Hin.
    specialize (Hno m Hin). congruence.
Qed.

Lemma call_model_system_message_not_persisted_witness :
  (exists system_time sys,
      fill_system_time "You are helpful. Time: {system_time}" system_time = Returned sys /\
      SystemMsg "You are helpful. Time: 2026-01-01T00:00:00+00:00" :: question =
        SystemMsg sys :: question) /\
  Forall (fun m => isinstance_SystemMessage m = false) [AIMsg ask_calc].
Proof.
  split.
  - destruct (proj1 (call_model_system_message_not_persisted scripted
                       (mkState question false) demo_context (demo_world [ask_calc]))
                (bind_tools "provider/chat-model" [calculator; search])
                (SystemMsg "You are helpful. Time: 2026-01-01T00:00:00+00:00" :: question)
                (Returned ask_calc))
      as (t & sys & _ & Hfmt & Hinput).
    + vm_compute. do 4 right. left. reflexivity.
    + exists t, sys. split; assumption.
  - apply (proj2 (call_model_system_message_not_persisted scripted (mkState question false)
                    demo_context (demo_world [ask_calc])) [AIMsg ask_calc]).
    reflexivity.
Defined.

(** C9, as the code has it: when [call_model] rewrites the response under the
    exhausted step budget, the rewritten Assistant message keeps the
    identifier of the response, its content is the notice and it requests no
    tool call; every other field is the default of a new [AIMessage], not the
    value the response had. *)
Theorem call_model_rewrite_keeps_id {W} (h : Handlers W) state context w bm input response :
  is_last_step state = true ->
  In (EvAinvoke bm input (Returned response))
     (ran_trace (interp h (call_model state context) w)) ->
  ai_tool_calls response <> [] ->
  exists rewritten,
    ran_out (interp h (call_model state context) w) = Returned [AIMsg rewritten] /\
    ai_id rewritten = ai_id response /\
    ai_content rewritten = budget_notice /\
    ai_tool_calls rewritten = [] /\
    ai_name rewritten = None /\
    ai_invalid_tool_calls rewritten = [] /\
    ai_additional_kwargs rewritten = [] /\
    ai_response_metadata rewritten = [] /\
    ai_usage_metadata rewritten = None.
Proof.
  intros Hlast Hin Hcalls.
  destruct (call_model_invoked _ _ _ _ _ _ _ Hin) as (ts & cm & t & sys & w' & _ & _ & _ & _ & Hout).
  exists (new_AIMessage (ai_id response) budget_notice).
  rewrite Hout, (call_model_reply_last_step _ _ Hlast Hcalls).
  repeat split.
Qed.

Lemma call_model_rewrite_keeps_id_witness :
  exists rewritten,
    ran_out (interp scripted (call_model (mkState question true) demo_context)
               (demo_world [ask_calc])) = Returned [AIMsg rewritten] /\
    ai_id rewritten = Some "run-1" /\
    ai_response_metadata rewritten = [].
Proof.
  destruct (call_model_rewrite_keeps_id scripted (mkState question true) demo_context
              (demo_world [ask_calc])
              (bind_tools "provider/chat-model" [calculator; search])
              (SystemMsg "You are helpful. Time: 2026-01-01T00:00:00+00:00" :: question)
              ask_calc)
    as (rewritten & Hout & Hid & _ & _ & _ & _ & _ & Hmeta & _).
  - reflexivity.
  - vm_compute. do 4 right. left. reflexivity.
  - discriminate.
  - exists rewritten. repeat split; assumption.
Defined.

(** C9, as the specification words it ("only the content and the tool-call
    requests differ from the original response"), does not hold: a response
    that carries response metadata and usage figures is rewritten into a
    message that carries neither. *)
Lemma call_model_rewrite_drops_other_fields :
  ~ (forall (h : Handlers World) state context w bm input response,
        is_last_step state = true ->
        In (EvAinvoke bm input (Returned response))
           (ran_trace (interp h (call_model state context) w)) ->
        ai_tool_calls response <> [] ->
        ran_out (interp h (call_model state context) w) =
          Returned [AIMsg (only_content_and_tool_calls_replaced response budget_notice [])]).
Proof.
  intros Hclaim.
  specialize (Hclaim scripted (mkState question true) demo_context (demo_world [ask_calc])
                (bind_tools "provider/chat-model" [calculator; search])
                (SystemMsg "You are helpful. Time: 2026-01-01T00:00:00+00:00" :: question)
                ask_calc eq_refl).
  assert (Hout : ran_out (interp scripted (call_model (mkState question true) demo_context)
                            (demo_world [ask_calc])) =
                 Returned [AIMsg (only_content_and_tool_calls_replaced ask_calc budget_notice [])]).
  { apply Hclaim; [vm_compute; do 4 right; left; reflexivity | discriminate]. }
  vm_compute in Hout. discriminate Hout.
Qed.

(** ** Claims about the Tool Executor *)




(** ** The Conversation State *)

Lemma graph_step_appends {W} (h : Handlers W) context max_steps (r : Run) (w : W) :
  exists new, run_messages (graph_step h context max_steps r w).1 = run_messages r ++ new.
Proof.
  unfold graph_step. destruct (run_node r).
  - destruct (ran_out _) as [update|e]; simpl.
    + now exists update.
    + exists []. now rewrite app_nil_r.
  - destruct (ran_out _) as [update|e]; simpl.
    + now exists update.
    + exists []. now rewrite app_nil_r.
  - exists []. now rewrite app_nil_r.
  - exists []. now rewrite app_nil_r.
Qed.

Lemma run_graph_appends {W} (h : Handlers W) context max_steps (fuel : nat) :
  forall (r : Run) (w : W),
  exists new, run_messages (run_graph h context max_steps fuel r w).1 = run_messages r ++ new.
Proof.
  induction fuel as [|fuel IH]; intros r w; simpl.
  - exists []. now rewrite app_nil_r.
  - destruct (graph_step h context max_steps r w) as [r' w'] eqn:Estep.
    destruct (graph_step_appends h context max_steps r w) as [new1 H1].
    rewrite Estep in H1. simpl in H1.
    destruct (IH r' w') as [new2 H2].
    exists (new1 ++ new2). now rewrite H2, H1, app_assoc.
Qed.

(** C4: the message sequence of the Conversation State never shrinks.  What a
    node returns is appended; one phase step of the graph, and a run of any
    number of steps, leave the messages they started from as a prefix of the
    messages they end with, so the length after is at least the length
    before. *)
Theorem conversation_state_never_shrinks {W} (h : Handlers W) context max_steps :
  (forall state update,
      messages (apply_update state update) = messages state ++ update) /\
  (forall (r : Run) (w : W),
      exists new,
        run_messages (graph_step h context max_steps r w).1 = run_messages r ++ new) /\
  (forall fuel (r : Run) (w : W),
      (exists new,
          run_messages (run_graph h context max_steps fuel r w).1 = run_messages r ++ new) /\
      length (run_messages r) <= length (run_messages (run_graph h context max_steps fuel r w).1)).
Proof.
  split; [reflexivity|]. split; [apply graph_step_appends|].
  intros fuel r w. destruct (run_graph_appends h context max_steps fuel r w) as [new Hnew].
  split; [now exists new|]. rewrite Hnew, length_app. lia.
Qed.

(** ** Scenarios of the specification *)

(** The calculator scenario: with a budget of five steps the run ends after
    the second reasoning step with the four messages Human, Assistant (one
    tool call), Tool Result, Assistant. *)
Example scenario_calculator :
  let r := (run_graph scripted demo_context 5 10 (start question)
              (demo_world [ask_calc; answer_four])).1 in
  run_node r = Node_end /\
  run_messages r =
    [HumanMsg "2+2?"; AIMsg ask_calc;
     ToolMsg (mkToolMessage "4" (Some "calculator") "call_1" status_success);
     AIMsg answer_four].
Proof. vm_compute. split; reflexivity. Qed.

(** The budget scenario: with a budget of one step the same model leaves two
    messages, the question and the notice. *)
Example scenario_budget_exceeded :
  let r := (run_graph scripted demo_context 1 10 (start question)
              (demo_world [ask_calc; answer_four])).1 in
  run_node r = Node_end /\
  run_messages r = [HumanMsg "2+2?"; AIMsg (new_AIMessage (Some "run-1") budget_notice)].
Proof. vm_compute. split; reflexivity. Qed.

(** A model backend that fails ends the run with the messages it had. *)
Example scenario_model_failure :
  (run_graph scripted demo_context 5 10 (start question) (demo_world [])).1 =
    mkRun (Node_failed (BackendError "model backend unavailable")) question 1.
Proof. vm_compute. reflexivity. Qed.

(** * Further properties of the nodes and of the graph *)

(** ** The reasoning node *)

Lemma call_model_reply_shape state response :
  exists ai,
    call_model_reply state response = [AIMsg ai] /\
    ai_id ai = ai_id response /\
    (is_last_step state = true -> ai_tool_calls ai = []) /\
    (is_last_step state = false \/ ai_tool_calls response = [] -> ai = response).
Proof.
  unfold call_model_reply.
  destruct (is_last_step state) eqn:Hlast, (truthy (ai_tool_calls response)) eqn:Hcalls; simpl.
  - eexists. split; [reflexivity|]. repeat split.
    intros [H|H]; [discriminate H|]. apply truthy_false in H. congruence.
  - exists response. apply truthy_false in Hcalls. repeat split; auto.
  - exists response. repeat split; auto. discriminate.
  - exists response. repeat split; auto. discriminate.
Qed.



(** X2: [call_model] invokes the model at most once, and exactly once when it
    returns; the model it invokes is the one [load_chat_model] gave for the
    model name of the context; what it returns is a single Assistant message
    with the identifier of the response, whichever branch produced it. *)
Theorem call_model_invokes_model_once {W} (h : Handlers W) state context w :
  model_invocations (ran_trace (interp h (call_model state context) w)) <= 1 /\
  (forall bm input answer,
      In (EvAinvoke bm input answer) (ran_trace (interp h (call_model state context) w)) ->
      In (EvLoadChatModel (model context) (Returned (bm_model bm)))
         (ran_trace (interp h (call_model state context) w))) /\
  (forall update,
      ran_out (interp h (call_model state context) w) = Returned update ->
      model_invocations (ran_trace (interp h (call_model state context) w)) = 1 /\
      exists bm input response ai,
        In (EvAinvoke bm input (Returned response))
           (ran_trace (interp h (call_model state context) w)) /\
        update = [AIMsg ai] /\
        ai_id ai = ai_id response).
Proof.
  split; [|split].
  - unfold_call_model. unfold model_invocations. handler_cases; simpl; lia.
  - intros bm input answer Hin.
    destruct (call_model_invoked _ _ _ _ _ _ _ Hin)
      as (ts & cm & t & sys & w' & _ & -> & _ & -> & _).
    simpl. tauto.
  - intros update Hout.
    destruct (call_model_returned _ _ _ _ _ Hout)
      as (ts & cm & t & sys & r & w' & (w1 & w2 & w3 & H1 & H2 & H3 & H4 & H5) & _ & ->).
    assert (Htrace : ran_trace (interp h (call_model state context) w) =
              [EvGetTools (Returned ts); EvLoadChatModel (model context) (Returned cm);
               EvUtcNow t; EvStrFormat (system_prompt context) t (Returned sys);
               EvAinvoke (bind_tools cm ts) (SystemMsg sys :: messages state) (Returned r)]).
    { unfold_call_model. cbn [interp bind]. rewrite H1. cbn [interp bind]. rewrite H2.
      cbn [interp bind]. rewrite H3. cbn [interp bind]. rewrite H4.
      cbn [interp bind]. rewrite H5. simpl.
      now destruct (is_last_step state && truthy (ai_tool_calls r)). }
    rewrite Htrace. split; [reflexivity|].
    destruct (call_model_reply_shape state r) as (ai & Hreply & Hid & _).
    exists (bind_tools cm ts), (SystemMsg sys :: messages state), r, ai.
    split; [simpl; tauto|]. split; assumption.
Qed.

Lemma call_model_invokes_model_once_witness :
  model_invocations
    (ran_trace (interp scripted (call_model (mkState question true) demo_context)
                  (demo_world [ask_calc]))) = 1.
Proof.
  apply (proj2 (proj2 (call_model_invokes_model_once scripted (mkState question true)
                         demo_context (demo_world [ask_calc])))
           [AIMsg (new_AIMessage (Some "run-1") budget_notice)]).
  reflexivity.
Defined.

Ltac split_trace :=
  match goal with
  | |- exists front ev, ?l = front ++ [ev] /\ _ =>
      let f := eval cbn in (removelast l) in
      let e := eval cbn in (List.last l (EvUtcNow "")) in
      exists f, e
  end.

(** X3: [call_model] neither catches nor originates an exception.  Its calls
    all succeed but possibly the last one; if that one raised, [call_model]
    raises the same exception and calls nothing after it; otherwise
    [call_model] returns. *)
Theorem call_model_surfaces_errors {W} (h : Handlers W) state context w :
  exists front ev,
    ran_trace (interp h (call_model state context) w) = front ++ [ev] /\
    Forall (fun ev' => event_raised ev' = None) front /\
    match event_raised ev with
    | Some e => ran_out (interp h (call_model state context) w) = Raised e
    | None => exists update, ran_out (interp h (call_model state context) w) = Returned update
    end.
Proof.
  unfold_call_model. handler_cases; simpl; split_trace.
  all: split; [reflexivity|]; split; [repeat constructor|]; simpl; eauto.
Qed.

(** X4: if the registry query raises, a node stops there: [call_model] loads
    and invokes no model, [dynamic_tools_node] invokes no tool, and each
    raises the exception of the registry, in the world the query left. *)
Theorem nodes_stop_on_registry_failure {W} (h : Handlers W) state context (w w1 : W) e :
  h_get_tools h w = (Raised e, w1) ->
  interp h (call_model state context) w = mkRan (Raised e) w1 [EvGetTools (Raised e)] /\
  interp h (dynamic_tools_node state) w = mkRan (Raised e) w1 [EvGetTools (Raised e)].
Proof.
  intros Htools. unfold_call_model. unfold dynamic_tools_node, get_tools.
  cbn [interp bind]. rewrite Htools. split; reflexivity.
Qed.

Lemma nodes_stop_on_registry_failure_witness :
  ran_out (interp scripted (call_model (mkState question false) demo_context)
             (mkWorld [] [ask_calc] 0)) =
    Raised (BackendError "no tool configuration") /\
  ran_trace (interp scripted (dynamic_tools_node (mkState (question ++ [AIMsg ask_calc]) false))
               (mkWorld [] [] 0)) =
    [EvGetTools (Raised (BackendError "no tool configuration"))].
Proof.
  split.
  - rewrite (proj1 (nodes_stop_on_registry_failure scripted (mkState question false)
                      demo_context (mkWorld [] [ask_calc] 0) (mkWorld [] [ask_calc] 0)
                      (BackendError "no tool configuration") eq_refl)).
    reflexivity.
  - rewrite (proj2 (nodes_stop_on_registry_failure scripted
                      (mkState (question ++ [AIMsg ask_calc]) false)
                      demo_context (mkWorld [] [] 0) (mkWorld [] [] 0)
                      (BackendError "no tool configuration") eq_refl)).
    reflexivity.
Defined.

(** ** The routing decision, read backwards *)

(** X5: the routes tell the two kinds of Assistant message apart: the action
    route is returned exactly on a last message that is an Assistant message
    with tool calls, and the terminal route exactly on one without. *)
Theorem route_model_output_inversion (state : State) :
  (route_model_output state = Returned Route_tools <-> pending_tool_calls (messages state)) /\
  (route_model_output state = Returned Route_end <-> final_answer (messages state)).
Proof.
  unfold pending_tool_calls, final_answer.
  destruct (last (messages state)) as [m|] eqn:Hlast.
  - rewrite (route_model_output_on_last _ _ Hlast).
    destruct m as [c|c|ai|t].
    1,2,4: split; split; try discriminate; intros (ai & Hai & _); discriminate Hai.
    destruct (truthy (ai_tool_calls ai)) eqn:Hcalls; split; split; try discriminate.
    + intros _. exists ai. apply truthy_true in Hcalls. auto.
    + reflexivity.
    + intros (ai' & Hai & Hnil). inversion Hai; subst.
      apply truthy_true in Hcalls. contradiction.
    + intros (ai' & Hai & Hne). inversion Hai; subst.
      apply truthy_false in Hcalls. contradiction.
    + intros _. exists ai. apply truthy_false in Hcalls. auto.
    + reflexivity.
  - apply last_None in Hlast. rewrite (route_model_output_on_empty _ Hlast).
    split; split; try discriminate; intros (ai & Hai & _); discriminate Hai.
Qed.

(** X6: the routing decision never fails right after [call_model]: on any
    state whose messages end with what [call_model] returned it returns a
    route, the action route exactly when the returned message requests tool
    calls, and always the terminal route when [call_model] ran on the last
    step. *)
Theorem route_after_call_model {W} (h : Handlers W) state context w update
    (earlier : list AnyMessage) (flag : bool) :
  ran_out (interp h (call_model state context) w) = Returned update ->
  exists ai,
    update = [AIMsg ai] /\
    route_model_output (mkState (earlier ++ update) flag) =
      Returned (if truthy (ai_tool_calls ai) then Route_tools else Route_end) /\
    (is_last_step state = true ->
     route_model_output (mkState (earlier ++ update) flag) = Returned Route_end).
Proof.
  intros Hout.
  destruct (call_model_returned _ _ _ _ _ Hout) as (ts & cm & t & sys & r & w' & _ & _ & ->).
  destruct (call_model_reply_shape state r) as (ai & -> & _ & Hlast & _).
  exists ai. split; [reflexivity|].
  assert (Hroute : route_model_output (mkState (earlier ++ [AIMsg ai]) flag) =
                   Returned (if truthy (ai_tool_calls ai) then Route_tools else Route_end)).
  { rewrite (route_model_output_on_last _ (AIMsg ai)); [|apply last_snoc].
    now destruct (truthy (ai_tool_calls ai)). }
  split; [exact Hroute|].
  intros Hl. rewrite Hroute, (Hlast Hl). reflexivity.
Qed.

Lemma route_after_call_model_witness :
  route_model_output
    (mkState (question ++ [AIMsg (new_AIMessage (Some "run-1") budget_notice)]) true) =
    Returned Route_end.
Proof.
  destruct (route_after_call_model scripted (mkState question true) demo_context
              (demo_world [ask_calc])
              [AIMsg (new_AIMessage (Some "run-1") budget_notice)] question true eq_refl)
    as (ai & _ & _ & Hend).
  apply Hend. reflexivity.
Defined.

(** ** The graph *)

(** One step from the reasoning node. *)
Lemma graph_step_call_model {W} (h : Handlers W) context max_steps (r : Run) (w : W) :
  run_node r = Node_call_model ->
  (exists e, (graph_step h context max_steps r w).1 =
               mkRun (Node_failed e) (run_messages r) (run_step r)) \/
  (exists ai,
      (graph_step h context max_steps r w).1 =
        mkRun (if truthy (ai_tool_calls ai) then Node_tools else Node_end)
              (run_messages r ++ [AIMsg ai]) (run_step r) /\
      (max_steps <= run_step r -> ai_tool_calls ai = [])).
Proof.
  intros Hnode. unfold graph_step. rewrite Hnode.
  destruct (ran_out _) as [update|e] eqn:Hout; [right|left; now exists e].
  destruct (call_model_returned _ _ _ _ _ Hout) as (ts & cm & t & sys & resp & w' & _ & _ & ->).
  destruct (call_model_reply_shape (state_of max_steps r) resp) as (ai & -> & _ & Hlast & _).
  exists ai. simpl. split.
  - rewrite (route_model_output_on_last _ (AIMsg ai)); [|apply last_snoc].
    now destruct (truthy (ai_tool_calls ai)).
  - intros Hle. apply Hlast. simpl. now apply Nat.leb_le.
Qed.

(** One step from the action node. *)
Lemma graph_step_tools {W} (h : Handlers W) context max_steps (r : Run) (w : W) :
  run_node r = Node_tools ->
  (exists e, (graph_step h context max_steps r w).1 =
               mkRun (Node_failed e) (run_messages r) (run_step r)) \/
  (exists update, (graph_step h context max_steps r w).1 =
                    mkRun Node_call_model (run_messages r ++ update) (S (run_step r))).
Proof.
  intros Hnode. unfold graph_step. rewrite Hnode.
  destruct (ran_out _) as [update|e]; [right; now exists update|left; now exists e].
Qed.

Lemma graph_step_terminal {W} (h : Handlers W) context max_steps (r : Run) (w : W) :
  terminal (run_node r) = true -> graph_step h context max_steps r w = (r, w).
Proof. unfold graph_step. destruct (run_node r); simpl; congruence. Qed.

Lemma run_graph_terminal {W} (h : Handlers W) context max_steps (fuel : nat) (r : Run) (w : W) :
  terminal (run_node r) = true -> run_graph h context max_steps fuel r w = (r, w).
Proof.
  intros Hterm. induction fuel as [|fuel IH]; simpl; [reflexivity|].
  now rewrite (graph_step_terminal _ _ _ _ _ Hterm).
Qed.

Lemma graph_step_well_scheduled {W} (h : Handlers W) context max_steps (r : Run) (w : W) :
  well_scheduled max_steps r ->
  well_scheduled max_steps (graph_step h context max_steps r w).1.
Proof.
  intros Hr. destruct (run_node r) eqn:Hnode.
  - destruct (graph_step_call_model h context max_steps r w Hnode)
      as [[e ->]|(ai & -> & Hlast)]; [exact I|].
    unfold well_scheduled. simpl.
    destruct (truthy (ai_tool_calls ai)) eqn:Hcalls; simpl.
    + apply truthy_true in Hcalls. split.
      * exists ai. split; [apply last_snoc|exact Hcalls].
      * destruct (Nat.le_gt_cases max_steps (run_step r)) as [Hle|Hlt]; [|exact Hlt].
        now specialize (Hlast Hle).
    + exists ai. split; [apply last_snoc|]. now apply truthy_false.
  - destruct (graph_step_tools h context max_steps r w Hnode) as [[e ->]|[update ->]]; exact I.
  - rewrite graph_step_terminal; [exact Hr|now rewrite Hnode].
  - rewrite graph_step_terminal; [exact Hr|now rewrite Hnode].
Qed.

Lemma graph_step_progress {W} (h : Handlers W) context max_steps (r : Run) (w : W) :
  well_scheduled max_steps r ->
  terminal (run_node r) = false ->
  steps_left max_steps (graph_step h context max_steps r w).1 < steps_left max_steps r.
Proof.
  intros Hr Hterm. destruct (run_node r) eqn:Hnode; try discriminate Hterm.
  - destruct (graph_step_call_model h context max_steps r w Hnode)
      as [[e ->]|(ai & -> & _)]; unfold steps_left; rewrite Hnode; simpl; [lia|].
    destruct (truthy (ai_tool_calls ai)); simpl; lia.
  - unfold well_scheduled in Hr. rewrite Hnode in Hr. destruct Hr as [_ Hlt].
    destruct (graph_step_tools h context max_steps r w Hnode) as [[e ->]|[update ->]];
      unfold steps_left; rewrite Hnode; simpl; lia.
Qed.

Lemma run_graph_well_scheduled_from {W} (h : Handlers W) context max_steps (fuel : nat) :
  forall (r : Run) (w : W),
    well_scheduled max_steps r ->
    well_scheduled max_steps (run_graph h context max_steps fuel r w).1.
Proof.
  induction fuel as [|fuel IH]; intros r w Hr; simpl; [exact Hr|].
  destruct (graph_step h context max_steps r w) as [r' w'] eqn:Hstep.
  apply IH. pose proof (graph_step_well_scheduled h context max_steps r w Hr) as H.
  now rewrite Hstep in H.
Qed.

Lemma run_graph_terminates_from {W} (h : Handlers W) context max_steps (fuel : nat) :
  forall (r : Run) (w : W),
    well_scheduled max_steps r ->
    steps_left max_steps r <= fuel ->
    terminal (run_node (run_graph h context max_steps fuel r w).1) = true.
Proof.
  induction fuel as [|fuel IH]; intros r w Hr Hfuel.
  - simpl. unfold steps_left in Hfuel. unfold well_scheduled in Hr.
    destruct (run_node r); simpl; try reflexivity; lia.
  - destruct (terminal (run_node r)) eqn:Hterm.
    + now rewrite run_graph_terminal.
    + simpl. destruct (graph_step h context max_steps r w) as [r' w'] eqn:Hstep.
      pose proof (graph_step_well_scheduled h context max_steps r w Hr) as Hr'.
      pose proof (graph_step_progress h context max_steps r w Hr Hterm) as Hlt.
      rewrite Hstep in Hr', Hlt. simpl in Hr', Hlt.
      apply IH; [exact Hr'|lia].
Qed.

Lemma run_graph_plus {W} (h : Handlers W) context max_steps (n m : nat) :
  forall (r : Run) (w : W),
    run_graph h context max_steps (n + m) r w =
      run_graph h context max_steps m (run_graph h context max_steps n r w).1
                (run_graph h context max_steps n r w).2.
Proof.
  induction n as [|n IH]; intros r w; simpl; [reflexivity|].
  destruct (graph_step h context max_steps r w) as [r' w']. apply IH.
Qed.

(** X7: in every run from [__start__], however far it has got, the action
    node is scheduled only when the last message is an Assistant message
    with tool calls and the step is not the last one, and the run has ended
    only on an Assistant message without tool calls. *)
Theorem run_graph_well_scheduled {W} (h : Handlers W) context max_steps
    (fuel : nat) (input : list AnyMessage) (w : W) :
  well_scheduled max_steps (run_graph h context max_steps fuel (start input) w).1.
Proof. apply run_graph_well_scheduled_from. exact I. Qed.

(** X8: on the last permitted step the action node is never scheduled: one
    step from the reasoning node ends the run, on a message without tool
    calls or on the exception of a collaborator. *)
Theorem graph_step_last_step_ends {W} (h : Handlers W) context max_steps (r : Run) (w : W) :
  run_node r = Node_call_model ->
  is_last_step (state_of max_steps r) = true ->
  terminal (run_node (graph_step h context max_steps r w).1) = true /\
  (run_node (graph_step h context max_steps r w).1 = Node_end ->
   final_answer (run_messages (graph_step h context max_steps r w).1)).
Proof.
  intros Hnode Hlast. simpl in Hlast. apply Nat.leb_le in Hlast.
  destruct (graph_step_call_model h context max_steps r w Hnode)
    as [[e ->]|(ai & -> & Hnil)]; simpl.
  - split; [reflexivity|discriminate].
  - specialize (Hnil Hlast). rewrite Hnil. simpl. split; [reflexivity|].
    intros _. exists ai. split; [apply last_snoc|exact Hnil].
Qed.

Lemma graph_step_last_step_ends_witness :
  terminal (run_node (graph_step scripted demo_context 1 (start question)
                        (demo_world [ask_calc])).1) = true.
Proof.
  apply (graph_step_last_step_ends scripted demo_context 1 (start question)
           (demo_world [ask_calc])); reflexivity.
Defined.

(** X9: the loop is bounded by the step budget: from [__start__], after
    [2 * max_steps + 1] graph steps at most the run has ended or failed, and
    more steps change nothing. *)
Theorem run_graph_terminates {W} (h : Handlers W) context max_steps
    (fuel : nat) (input : list AnyMessage) (w : W) :
  S (2 * max_steps) <= fuel ->
  terminal (run_node (run_graph h context max_steps fuel (start input) w).1) = true /\
  run_graph h context max_steps fuel (start input) w =
    run_graph h context max_steps (S (2 * max_steps)) (start input) w.
Proof.
  intros Hfuel.
  assert (Hend : terminal (run_node (run_graph h context max_steps (S (2 * max_steps))
                                       (start input) w).1) = true).
  { apply run_graph_terminates_from; [exact I|]. unfold steps_left. simpl. lia. }
  replace fuel with (S (2 * max_steps) + (fuel - S (2 * max_steps))) by lia.
  rewrite run_graph_plus, (run_graph_terminal _ _ _ _ _ _ Hend).
  revert Hend. generalize (run_graph h context max_steps (S (2 * max_steps)) (start input) w).
  intros [r' w'] Hend. split; [exact Hend|reflexivity].
Qed.

Lemma run_graph_terminates_witness :
  terminal (run_node (run_graph scripted demo_context 5 20 (start question)
                        (demo_world [ask_calc; answer_four])).1) = true.
Proof.
  apply (run_graph_terminates scripted demo_context 5 20 question
           (demo_world [ask_calc; answer_four])).
  simpl. lia.
Defined.
